(** * Verification of the AI-OCR benchmark report and metrics dashboard

    Shallow embedding of the benchmark data shipped with the repository
    (the [mockBenchmarkData] object of the benchmark comparison component,
    the results tables of the benchmark methodology document and the mock
    data objects of the dashboard components), of the dashboard components
    that render it, and, where the benchmark engine itself is not part of
    the sources, of the engine as its specification describes it.

    Numbers that JavaScript holds as floating point literals are modelled
    as exact rationals ([Q]); every literal of the source is a short
    decimal, and every claim below is decided far away from rounding
    noise. Millisecond latencies and token counts are integers ([Z]). *)

From Stdlib Require Import ZArith QArith Qround Qabs List String Ascii Bool Lia Permutation.
Import ListNotations.

Open Scope Q_scope.
Open Scope string_scope.

(* ------------------------------------------------------------------ *)
(** ** Benchmark data of the comparison component (part_005) *)

Module MockBenchmark.

(** One row of [efficiency], [effectiveness] or [qualityRadar]:
    a metric name with the value of each pipeline variant. *)
Record row := mkRow {
  metric : string;
  deepseek : Q;
  lighton : Q
}.

(** [mockBenchmarkData.efficiency] *)
Definition efficiency : list row := [
  mkRow "Compression Ratio" 4.2 1.0;
  mkRow "Latency" 1240 2850;
  mkRow "Cost per Doc" 0.0043 0.0108;
  mkRow "Tokens Used" 450 1800
].

(** [mockBenchmarkData.effectiveness] *)
Definition effectiveness : list row := [
  mkRow "Faithfulness" 94.2 95.1;
  mkRow "Relevancy" 97.1 96.8;
  mkRow "Context Precision" 92.5 93.2;
  mkRow "Context Recall" 91.3 94.5
].

(** [mockBenchmarkData.latencyBreakdown] (milliseconds) *)
Definition latencyBreakdown : list (string * Z * Z) := [
  ("OCR", 720%Z, 850%Z);
  ("Processing", 120%Z, 450%Z);
  ("LLM", 400%Z, 1550%Z)
].

(** [mockBenchmarkData.qualityRadar] *)
Definition qualityRadar : list row := [
  mkRow "Faithfulness" 94.2 95.1;
  mkRow "Relevancy" 97.1 96.8;
  mkRow "Precision" 92.5 93.2;
  mkRow "Recall" 91.3 94.5;
  mkRow "Overall" 93.8 94.9
].

(** Lookup of a row by metric name, as the components read them. *)
Fixpoint find_row (name : string) (rs : list row) : option row :=
  match rs with
  | [] => None
  | r :: rs' => if String.eqb (metric r) name then Some r else find_row name rs'
  end.

End MockBenchmark.

(* ------------------------------------------------------------------ *)
(** ** Quality scores *)

Module Quality.

(** A quality score: the four component scores and the stored overall
    score, as one column of [qualityRadar] holds them. *)
Record QualityScore := mkScore {
  faithfulness : Q;
  relevancy : Q;
  context_precision : Q;
  context_recall : Q;
  overall : Q
}.

(** The documented overall score: "Weighted average: Faithfulness (30%)
    + Relevancy (30%) + Precision (20%) + Recall (20%)". *)
Definition weighted_overall (s : QualityScore) : Q :=
  0.30 * faithfulness s + 0.30 * relevancy s
  + 0.20 * context_precision s + 0.20 * context_recall s.

(** The unweighted mean of the four components. *)
Definition plain_mean (s : QualityScore) : Q :=
  (faithfulness s + relevancy s + context_precision s + context_recall s) / 4.

(** Rounding to one decimal place, the precision the data is given in. *)
Definition round1 (q : Q) : Q := inject_Z (Qfloor (q * 10 + (1 # 2))) / 10.

(** Recomputing the overall score from the stored components reproduces
    the stored overall score. *)
Definition overall_consistent (s : QualityScore) : bool :=
  Qeq_bool (weighted_overall s) (overall s).

(** Column [v] of [qualityRadar] read as a quality score. *)
Definition score_of (v : MockBenchmark.row -> Q) : option QualityScore :=
  match MockBenchmark.find_row "Faithfulness" MockBenchmark.qualityRadar,
        MockBenchmark.find_row "Relevancy" MockBenchmark.qualityRadar,
        MockBenchmark.find_row "Precision" MockBenchmark.qualityRadar,
        MockBenchmark.find_row "Recall" MockBenchmark.qualityRadar,
        MockBenchmark.find_row "Overall" MockBenchmark.qualityRadar with
  | Some f, Some r, Some p, Some c, Some o =>
      Some (mkScore (v f) (v r) (v p) (v c) (v o))
  | _, _, _, _, _ => None
  end.

Definition deepseek_score : option QualityScore := score_of MockBenchmark.deepseek.
Definition lighton_score : option QualityScore := score_of MockBenchmark.lighton.

End Quality.

(* ------------------------------------------------------------------ *)
(** ** Dashboard components *)

Module Dashboard.

Inductive text_color := TextRed | TextGreen.
Inductive trend_icon := TrendingUp | TrendingDown.

(** What a component puts on the screen: metric cards (label, value,
    trend value, colour of the trend line, trend icon if any) and charts
    (title, then one data series per plotted key). Values are kept as
    the numbers the component formats; [toFixed] only changes how they
    are printed. *)
Inductive widget :=
| WCard (label : string) (value : Q) (trend : Q) (color : text_color)
        (icon : option trend_icon)
| WChart (title : string) (series : list (string * list Q)).

(** [trend > 0] of the components, on JavaScript numbers. *)
Definition is_positive (trend : Q) : bool := negb (Qle_bool trend 0).

(** *** EfficiencyMetrics.jsx *)

Record EfficiencyData := mkEfficiencyData {
  tokenCompressionRatio : Q;
  tokenCompressionTrend : Q;
  latencyMs : Q;
  latencyTrend : Q;
  costPerDoc : Q;
  costTrend : Q;
  compressionHistory : list (string * Q);
  eff_latencyBreakdown : list (string * Q);
  eff_costBreakdown : list (string * Q)
}.

Definition mockEfficiencyData : EfficiencyData := {|
  tokenCompressionRatio := 4.2;
  tokenCompressionTrend := 5.3;
  latencyMs := 1240;
  latencyTrend := -8.2;
  costPerDoc := 0.0045;
  costTrend := -12.5;
  compressionHistory := [("00:00", 3.8); ("04:00", 3.9); ("08:00", 4.0);
    ("12:00", 4.1); ("16:00", 4.2); ("20:00", 4.3); ("23:59", 4.2)];
  eff_latencyBreakdown := [("OCR Processing", 720); ("LLM Processing", 520)];
  eff_costBreakdown := [("Gemini API", 0.0025); ("GPT API", 0.0020)]
|}.

(** [MetricCard]: [isPositive = trend > 0], red text and the upward
    icon when positive, green text and the downward icon otherwise; the
    card prints [Math.abs(trend)]. *)
Definition MetricCard (label : string) (value trend : Q) : widget :=
  let isPositive := is_positive trend in
  WCard label value (Qabs trend)
    (if isPositive then TextRed else TextGreen)
    (Some (if isPositive then TrendingUp else TrendingDown)).

Record EfficiencyProps := { eff_cluster : string; eff_expanded : bool }.

Definition EfficiencyMetrics (props : EfficiencyProps) (data : EfficiencyData)
  : list widget :=
  [ MetricCard "Token Compression Ratio" (tokenCompressionRatio data)
      (tokenCompressionTrend data);
    MetricCard "End-to-End Latency" (latencyMs data) (latencyTrend data);
    MetricCard "Cost per Document" (costPerDoc data) (costTrend data) ]
  ++ (if eff_expanded props then
        [ WChart "Token Compression Ratio Trend"
            [("ratio", map snd (compressionHistory data))];
          WChart "Latency Breakdown" [("value", map snd (eff_latencyBreakdown data))];
          WChart "Cost Breakdown by LLM" [("value", map snd (eff_costBreakdown data))] ]
      else []).

(** *** EffectivenessMetrics.jsx *)

Record EffectivenessData := mkEffectivenessData {
  ocrPrecision : Q; ocrPrecisionTrend : Q;
  answerFaithfulness : Q; answerFaithfulnessTrend : Q;
  answerRelevancy : Q; answerRelevancyTrend : Q;
  contextualPrecision : Q; contextualPrecisionTrend : Q;
  precisionTrend : list (string * Q * Q * Q * Q);
  radarData : list (string * Q);
  errorRates : list (string * Q * Q)
}.

Definition mockEffectivenessData : EffectivenessData := {|
  ocrPrecision := 96.8; ocrPrecisionTrend := 2.1;
  answerFaithfulness := 94.2; answerFaithfulnessTrend := 1.5;
  answerRelevancy := 97.1; answerRelevancyTrend := 0.8;
  contextualPrecision := 92.5; contextualPrecisionTrend := -0.3;
  precisionTrend := [
    ("00:00", 95.2, 92.8, 96.5, 92.8); ("04:00", 95.8, 93.2, 96.8, 92.9);
    ("08:00", 96.1, 93.6, 96.9, 92.6); ("12:00", 96.5, 94.0, 97.0, 92.4);
    ("16:00", 96.7, 94.1, 97.1, 92.5); ("20:00", 96.9, 94.2, 97.1, 92.6);
    ("23:59", 96.8, 94.2, 97.1, 92.5)];
  radarData := [("OCR Precision", 96.8); ("Faithfulness", 94.2);
    ("Relevancy", 97.1); ("Contextual", 92.5)];
  errorRates := [("Gemini", 2.1, 3.2); ("GPT-4", 1.8, 2.9); ("Claude", 1.9, 3.0)]
|}.

(** [EffectivenessCard]: green trend text when [trend > 0], red otherwise;
    no trend icon. *)
Definition EffectivenessCard (label : string) (value trend : Q) : widget :=
  WCard label value trend (if is_positive trend then TextGreen else TextRed) None.

Record EffectivenessProps := { effv_cluster : string; effv_expanded : bool }.

Definition EffectivenessMetrics (props : EffectivenessProps) (data : EffectivenessData)
  : list widget :=
  [ EffectivenessCard "OCR Precision" (ocrPrecision data) (ocrPrecisionTrend data);
    EffectivenessCard "Answer Faithfulness" (answerFaithfulness data)
      (answerFaithfulnessTrend data);
    EffectivenessCard "Answer Relevancy" (answerRelevancy data) (answerRelevancyTrend data);
    EffectivenessCard "Contextual Precision" (contextualPrecision data)
      (contextualPrecisionTrend data) ]
  ++ (if effv_expanded props then
        [ WChart "Precision Metrics Trend"
            [("ocr", map (fun '(_, o, _, _, _) => o) (precisionTrend data));
             ("faithfulness", map (fun '(_, _, f, _, _) => f) (precisionTrend data));
             ("relevancy", map (fun '(_, _, _, r, _) => r) (precisionTrend data));
             ("contextual", map (fun '(_, _, _, _, c) => c) (precisionTrend data))];
          WChart "Overall Quality" [("value", map snd (radarData data))];
          WChart "Error Rates by Model"
            [("cer", map (fun '(_, c, _) => c) (errorRates data));
             ("wer", map (fun '(_, _, w) => w) (errorRates data))] ]
      else []).

(** *** ResourceMetrics (part_004) *)

Record ResourceData := mkResourceData {
  gpuVramUsage : Q; gpuVramTrend : Q;
  cpuUsage : Q; cpuTrend : Q;
  memoryUsage : Q; memoryTrend : Q;
  vramHistory : list (string * Q * Q * Q);
  bottlenecks : list (string * Q * Q);
  nodeResources : list (string * Q * Q * Q)
}.

Definition mockResourceData : ResourceData := {|
  gpuVramUsage := 78.5; gpuVramTrend := 3.2;
  cpuUsage := 62.1; cpuTrend := -2.1;
  memoryUsage := 71.3; memoryTrend := 1.5;
  vramHistory := [
    ("00:00", 65.2, 58.3, 68.5); ("04:00", 68.5, 60.2, 69.1);
    ("08:00", 72.1, 61.5, 70.2); ("12:00", 75.3, 62.8, 71.0);
    ("16:00", 77.2, 62.5, 71.5); ("20:00", 78.8, 62.2, 71.2);
    ("23:59", 78.5, 62.1, 71.3)];
  bottlenecks := [
    ("SAM (Segment Anything)", 320, 35.2); ("DeepEncoder", 280, 30.8);
    ("CLIP Component", 240, 26.4); ("Compression", 70, 7.6)];
  nodeResources := [
    ("Node-1 (AKS)", 82, 65, 74); ("Node-2 (AKS)", 75, 58, 68);
    ("Node-1 (GKE)", 79, 64, 72); ("Node-2 (GKE)", 77, 61, 70)]
|}.

(** [ResourceCard]: red trend text when [trend > 0], green otherwise;
    a set warning flag adds the red "High resource utilization detected"
    banner below the card, modelled as an extra widget without data. *)
Definition ResourceCard (label : string) (value trend : Q) (warning : bool)
  : list widget :=
  WCard label value trend (if is_positive trend then TextRed else TextGreen) None
  :: (if warning then [WChart "High resource utilization detected" []] else []).

Record ResourceProps := { res_cluster : string }.

Definition ResourceMetrics (props : ResourceProps) (data : ResourceData)
  : list widget :=
  ResourceCard "GPU VRAM Usage" (gpuVramUsage data) (gpuVramTrend data)
    (negb (Qle_bool (gpuVramUsage data) 75))
  ++ ResourceCard "CPU Usage" (cpuUsage data) (cpuTrend data) false
  ++ ResourceCard "Memory Usage" (memoryUsage data) (memoryTrend data)
       (negb (Qle_bool (memoryUsage data) 70))
  ++ [ WChart "Resource Utilization Trend"
         [("vram", map (fun '(_, v, _, _) => v) (vramHistory data));
          ("cpu", map (fun '(_, _, c, _) => c) (vramHistory data));
          ("memory", map (fun '(_, _, _, m) => m) (vramHistory data))];
       WChart "Compute Bottlenecks Analysis"
         [("time", map (fun '(_, t, _) => t) (bottlenecks data));
          ("percentage", map (fun '(_, _, p) => p) (bottlenecks data))];
       WChart "Node Resource Distribution"
         [("gpu", map (fun '(_, g, _, _) => g) (nodeResources data));
          ("cpu", map (fun '(_, _, c, _) => c) (nodeResources data));
          ("memory", map (fun '(_, _, _, m) => m) (nodeResources data))] ].

(** *** TimeSeriesChart.jsx *)

(** [mockTimeSeriesData]: time, compression, latency, cost, accuracy. *)
Definition mockTimeSeriesData : list (string * Q * Q * Q * Q) := [
  ("00:00", 3.8, 1450, 0.0052, 95.2); ("04:00", 3.9, 1380, 0.0048, 95.8);
  ("08:00", 4.0, 1320, 0.0046, 96.1); ("12:00", 4.1, 1280, 0.0045, 96.5);
  ("16:00", 4.2, 1250, 0.0044, 96.7); ("20:00", 4.3, 1240, 0.0043, 96.9);
  ("23:59", 4.2, 1240, 0.0045, 96.8)].

(** The [selectedMetrics] state of the chart and its toggle handler. *)
Record Selected := { sel_compression : bool; sel_latency : bool;
                     sel_cost : bool; sel_accuracy : bool }.

Definition initialSelected : Selected :=
  {| sel_compression := true; sel_latency := true;
     sel_cost := false; sel_accuracy := false |}.

Inductive metric_key := KCompression | KLatency | KCost | KAccuracy.

Definition toggleMetric (k : metric_key) (prev : Selected) : Selected :=
  match k with
  | KCompression => {| sel_compression := negb (sel_compression prev);
      sel_latency := sel_latency prev; sel_cost := sel_cost prev;
      sel_accuracy := sel_accuracy prev |}
  | KLatency => {| sel_compression := sel_compression prev;
      sel_latency := negb (sel_latency prev); sel_cost := sel_cost prev;
      sel_accuracy := sel_accuracy prev |}
  | KCost => {| sel_compression := sel_compression prev;
      sel_latency := sel_latency prev; sel_cost := negb (sel_cost prev);
      sel_accuracy := sel_accuracy prev |}
  | KAccuracy => {| sel_compression := sel_compression prev;
      sel_latency := sel_latency prev; sel_cost := sel_cost prev;
      sel_accuracy := negb (sel_accuracy prev) |}
  end.

Record TimeSeriesProps := { ts_timeRange : string; ts_cluster : string }.

Definition TimeSeriesChart (props : TimeSeriesProps) (selectedMetrics : Selected)
  : list widget :=
  [ WChart "Key Metrics Timeline"
      ((if sel_compression selectedMetrics
        then [("compression", map (fun '(_, c, _, _, _) => c) mockTimeSeriesData)] else [])
       ++ (if sel_latency selectedMetrics
           then [("latency", map (fun '(_, _, l, _, _) => l) mockTimeSeriesData)] else [])
       ++ (if sel_cost selectedMetrics
           then [("cost", map (fun '(_, _, _, c, _) => c) mockTimeSeriesData)] else [])
       ++ (if sel_accuracy selectedMetrics
           then [("accuracy", map (fun '(_, _, _, _, a) => a) mockTimeSeriesData)] else [])) ].

(** *** Mounted components

    Each component keeps its data in [useState], initialised once at
    mount with the mock object and never set again (the setter is not
    even destructured); the time-series chart keeps [selectedMetrics],
    changed only by [toggleMetric]. A mounted instance is its state; a
    re-render with new props leaves it as it is, a click toggles. *)

Record Mounted := {
  m_efficiency : EfficiencyData;
  m_effectiveness : EffectivenessData;
  m_resource : ResourceData;
  m_selected : Selected
}.

Definition mount : Mounted :=
  {| m_efficiency := mockEfficiencyData;
     m_effectiveness := mockEffectivenessData;
     m_resource := mockResourceData;
     m_selected := initialSelected |}.

(** The dashboard-wide props: the selected cluster and time range of the
    app, and whether the component is shown expanded. *)
Record AppProps := { selectedCluster : string; timeRange : string }.

Inductive event :=
| Rerender (p : AppProps)
| Toggle (k : metric_key).

Definition step (m : Mounted) (e : event) : Mounted :=
  match e with
  | Rerender _ => m
  | Toggle k =>
      {| m_efficiency := m_efficiency m; m_effectiveness := m_effectiveness m;
         m_resource := m_resource m; m_selected := toggleMetric k (m_selected m) |}
  end.

Definition run (es : list event) : Mounted := fold_left step es mount.

(** The screen of the four components for the given props and state. *)
Definition screen (p : AppProps) (expanded : bool) (m : Mounted) : list widget :=
  EfficiencyMetrics {| eff_cluster := selectedCluster p; eff_expanded := expanded |}
    (m_efficiency m)
  ++ EffectivenessMetrics {| effv_cluster := selectedCluster p; effv_expanded := expanded |}
    (m_effectiveness m)
  ++ ResourceMetrics {| res_cluster := selectedCluster p |} (m_resource m)
  ++ TimeSeriesChart {| ts_timeRange := timeRange p; ts_cluster := selectedCluster p |}
    (m_selected m).

End Dashboard.

(* ------------------------------------------------------------------ *)
(** ** Stage durations of the reported benchmark records *)

Module Latency.

Local Open Scope Z_scope.

(** A benchmark record's timing: its per-stage durations (ms) and its
    end-to-end duration (ms). *)
Record BenchmarkRecord := mkRecord {
  stages : list (string * Z);
  total_ms : Z
}.

Definition stage_sum (r : BenchmarkRecord) : Z :=
  fold_right (fun s acc => snd s + acc) 0 (stages r).

(** Σ stage durations equals the total duration within 1 ms. *)
Definition within_1ms (r : BenchmarkRecord) : bool :=
  Z.abs (stage_sum r - total_ms r) <=? 1.

(** The latency of variant [v] in [mockBenchmarkData.efficiency]. *)
Definition mock_total (v : MockBenchmark.row -> Q) : Z :=
  match MockBenchmark.find_row "Latency" MockBenchmark.efficiency with
  | Some r => Qfloor (v r)
  | None => 0
  end.

(** [mockBenchmarkData.latencyBreakdown], one column per variant, with
    the variant's [efficiency] latency as total. *)
Definition mock_deepseek : BenchmarkRecord :=
  mkRecord (map (fun '(n, d, _) => (n, d)) MockBenchmark.latencyBreakdown)
           (mock_total MockBenchmark.deepseek).
Definition mock_lighton : BenchmarkRecord :=
  mkRecord (map (fun '(n, _, l) => (n, l)) MockBenchmark.latencyBreakdown)
           (mock_total MockBenchmark.lighton).

(** [mockEfficiencyData.latencyBreakdown] with [latencyMs] as total. *)
Definition dashboard_deepseek : BenchmarkRecord :=
  mkRecord (map (fun '(n, v) => (n, Qfloor v))
                (Dashboard.eff_latencyBreakdown Dashboard.mockEfficiencyData))
           (Qfloor (Dashboard.latencyMs Dashboard.mockEfficiencyData)).

(** "Latency Performance" of the methodology document (part_000):
    "DeepSeek: 1,240ms (720ms OCR + 120ms compression + 400ms LLM)". *)
Definition doc_deepseek : BenchmarkRecord :=
  mkRecord [("OCR", 720); ("compression", 120); ("LLM", 400)] 1240.

(** "LightOn: 2,850ms (850ms OCR + 450ms chunking + 550ms embedding +
    1,000ms retrieval + 1,550ms LLM)". *)
Definition doc_lighton : BenchmarkRecord :=
  mkRecord [("OCR", 850); ("chunking", 450); ("embedding", 550);
            ("retrieval", 1000); ("LLM", 1550)] 2850.

End Latency.

(* ------------------------------------------------------------------ *)
(** ** Comparative statistics *)

Module Report.

Inductive variant := CompressionVariant | RetrievalVariant.

Definition variant_eqb (a b : variant) : bool :=
  match a, b with
  | CompressionVariant, CompressionVariant | RetrievalVariant, RetrievalVariant => true
  | _, _ => false
  end.

Inductive direction := HigherIsBetter | LowerIsBetter.

(** Modelled from the spec: the Report Aggregator's per-metric
    percentage delta ((A−B)/B, in percent), reported as unavailable when
    the baseline mean B is 0. *)
Definition pct_delta (a b : Q) : option Q :=
  if Qeq_bool b 0 then None else Some ((a - b) / b * 100).

(** Modelled from the spec: the Report Aggregator's winner tag, from the
    metric's directionality; [None] on a tie. A is the compression
    variant's mean, B the retrieval variant's. *)
Definition winner (d : direction) (a b : Q) : option variant :=
  if Qeq_bool a b then None
  else match d with
       | HigherIsBetter => Some (if Qle_bool b a then CompressionVariant else RetrievalVariant)
       | LowerIsBetter => Some (if Qle_bool a b then CompressionVariant else RetrievalVariant)
       end.

(** Modelled from the spec: the directionality table (lower is better for
    latency, cost and token use; higher is better for the compression
    ratio and the quality scores). *)
Definition directionality (metric : string) : direction :=
  if existsb (String.eqb metric) ["Latency (ms)"; "Cost per Document"; "Token Count"]
  then LowerIsBetter else HigherIsBetter.

Definition is_quality_metric (metric : string) : bool :=
  existsb (String.eqb metric)
    ["Faithfulness"; "Relevancy"; "Context Precision"; "Context Recall"; "Overall Quality"].

(** One row of the "Summary Statistics" table of the methodology
    document (part_000): DeepSeek (compression variant) and LightOn
    (retrieval variant) values, the printed difference in percent and the
    winner tag. *)
Record summary_row := mkSummary {
  s_metric : string;
  s_deepseek : Q;
  s_lighton : Q;
  s_difference : Q;
  s_winner : variant
}.

Definition summary_table : list summary_row := [
  mkSummary "Compression Ratio" 4.2 1.0 320 CompressionVariant;
  mkSummary "Latency (ms)" 1240 2850 (-57) CompressionVariant;
  mkSummary "Cost per Document" 0.0043 0.0108 (-60) CompressionVariant;
  mkSummary "Token Count" 450 1800 (-75) CompressionVariant;
  mkSummary "Faithfulness" 94.2 95.1 (-0.9) RetrievalVariant;
  mkSummary "Relevancy" 97.1 96.8 0.3 CompressionVariant;
  mkSummary "Context Precision" 92.5 93.2 (-0.7) RetrievalVariant;
  mkSummary "Context Recall" 91.3 94.5 (-3.2) RetrievalVariant;
  mkSummary "Overall Quality" 93.8 94.9 (-1.1) RetrievalVariant
].

(** The printed difference is the percentage delta (A−B)/B when printed
    at the table's precision: the delta rounded to one decimal place. *)
Definition difference_is_pct_delta (r : summary_row) : bool :=
  match pct_delta (s_deepseek r) (s_lighton r) with
  | Some d => if is_quality_metric (s_metric r)
              then Qeq_bool (Quality.round1 d) (s_difference r)
              else Qle_bool (Qabs (d - s_difference r)) (1 # 2)
  | None => false
  end.

(** The printed winner is the one of the directionality table. *)
Definition winner_ok (r : summary_row) : bool :=
  match winner (directionality (s_metric r)) (s_deepseek r) (s_lighton r) with
  | Some w => variant_eqb w (s_winner r)
  | None => false
  end.

(** An optional delta equal to [t]. *)
Definition delta_eqb (o : option Q) (t : Q) : bool :=
  match o with Some d => Qeq_bool d t | None => false end.

(** The amended reading of the difference column: within one percentage
    point of (A−B)/B for the efficiency rows, and the absolute difference
    A−B, in percentage points, for the quality-score rows. *)
Definition difference_as_printed (r : summary_row) : bool :=
  if is_quality_metric (s_metric r)
  then Qeq_bool (s_difference r) (s_deepseek r - s_lighton r)
  else match pct_delta (s_deepseek r) (s_lighton r) with
       | Some d => negb (Qle_bool 1 (Qabs (d - s_difference r)))
       | None => false
       end.

End Report.

(* ------------------------------------------------------------------ *)
(** ** Benchmark engine

    The orchestrator, the retry policy, the report aggregator and the
    quality evaluator are not part of the sources (the integration guide
    only shows their callers); they are modelled from the specification. *)

Module Engine.

Import Report.

(** *** Positional ordering of the report: stable insertion sort on the
    document identifier. *)

Section Sort.
Context {A : Type} (key : A -> string).

Fixpoint insert (x : A) (l : list A) : list A :=
  match l with
  | [] => [x]
  | y :: l' => if String.leb (key x) (key y) then x :: l else y :: insert x l'
  end.

Definition isort (l : list A) : list A := fold_right insert [] l.

Fixpoint sorted (l : list A) : bool :=
  match l with
  | x :: ((y :: _) as l') => String.leb (key x) (key y) && sorted l'
  | _ => true
  end.
End Sort.

(** *** Data model *)

Inductive error_kind :=
| UpstreamUnavailable | RateLimited | TimeoutError | InvalidContext | ExtractionError.

(** Transient errors are retried; the others fail the unit of work at once. *)
Definition transient (e : error_kind) : bool :=
  match e with
  | UpstreamUnavailable | RateLimited | TimeoutError => true
  | InvalidContext | ExtractionError => false
  end.

(** The outcome of one call of a pipeline variant on a document: its
    end-to-end latency (ms) or an error. *)
Inductive outcome := Success (latency_ms : Z) | Failure (e : error_kind).

Record QAPair := mkQA { qa_doc : string; question : string; ground_truth : string }.

Record Dataset := mkDataset { documents : list string; qa_pairs : list QAPair }.

Record Config := mkConfig { retries : nat }.

Record BenchRecord := mkBR {
  br_doc : string; br_variant : variant; br_latency : Z; br_quality : Z }.

Record FailureEntry := mkFail {
  f_doc : string; f_variant : variant; f_error : error_kind; f_attempts : nat }.

Record VariantStats := mkStats {
  vs_attempted : nat; vs_succeeded : nat; vs_excluded : nat;
  vs_latency_sum : Z; vs_quality_sum : Z }.

Record BenchmarkReport := mkReport {
  rep_records : list BenchRecord;
  rep_failures : list FailureEntry;
  rep_compression : VariantStats;
  rep_retrieval : VariantStats;
  rep_latency_delta : option Q;
  rep_latency_winner : option variant;
  rep_quality_delta : option Q;
  rep_quality_winner : option variant
}.

(** Modelled from the spec: the retry policy of external calls, bounded
    retries of transient errors. Returns the final outcome and the number
    of attempts made. *)

Fixpoint attempt (fuel k : nat) (call : nat -> outcome) : outcome * nat :=
  match call k with
  | Success l => (Success l, S k)
  | Failure e =>
      if transient e then
        match fuel with
        | O => (Failure e, S k)
        | S fuel' => attempt fuel' (S k) call
        end
      else (Failure e, S k)
  end.

Definition with_retries (n : nat) (call : nat -> outcome) : outcome * nat :=
  attempt n 0 call.

(** *** Report aggregator *)

Definition sum_latency (rs : list BenchRecord) : Z :=
  fold_right (fun r acc => (br_latency r + acc)%Z) 0%Z rs.
Definition sum_quality (rs : list BenchRecord) : Z :=
  fold_right (fun r acc => (br_quality r + acc)%Z) 0%Z rs.

Definition of_variant (v : variant) (rs : list BenchRecord) : list BenchRecord :=
  filter (fun r => variant_eqb (br_variant r) v) rs.
Definition failures_of (v : variant) (fs : list FailureEntry) : list FailureEntry :=
  filter (fun f => variant_eqb (f_variant f) v) fs.

Definition stats (v : variant) (rs : list BenchRecord) (fs : list FailureEntry)
  : VariantStats :=
  let ok := of_variant v rs in
  let ex := failures_of v fs in
  mkStats (List.length ok + List.length ex) (List.length ok) (List.length ex)
          (sum_latency ok) (sum_quality ok).

Definition mean (sum : Z) (n : nat) : option Q :=
  match n with O => None | _ => Some (inject_Z sum / inject_Z (Z.of_nat n)) end.

Definition delta_of (a b : option Q) : option Q :=
  match a, b with Some a, Some b => pct_delta a b | _, _ => None end.
Definition winner_of (d : direction) (a b : option Q) : option variant :=
  match a, b with Some a, Some b => winner d a b | _, _ => None end.

(** Modelled from the spec: the Report Aggregator. Records and failure
    entries are sorted by document identifier, then reduced to per-variant
    sample sizes, exclusions, sums, means, deltas and winners. *)
Definition aggregate (rs : list BenchRecord) (fs : list FailureEntry) : BenchmarkReport :=
  let rs' := isort br_doc rs in
  let fs' := isort f_doc fs in
  let c := stats CompressionVariant rs' fs' in
  let r := stats RetrievalVariant rs' fs' in
  let lat_c := mean (vs_latency_sum c) (vs_succeeded c) in
  let lat_r := mean (vs_latency_sum r) (vs_succeeded r) in
  let q_c := mean (vs_quality_sum c) (vs_succeeded c) in
  let q_r := mean (vs_quality_sum r) (vs_succeeded r) in
  mkReport rs' fs' c r
    (delta_of lat_c lat_r) (winner_of LowerIsBetter lat_c lat_r)
    (delta_of q_c q_r) (winner_of HigherIsBetter q_c q_r).

Definition other (v : variant) : variant :=
  match v with
  | CompressionVariant => RetrievalVariant
  | RetrievalVariant => CompressionVariant
  end.

Definition stats_of (v : variant) (rep : BenchmarkReport) : VariantStats :=
  match v with
  | CompressionVariant => rep_compression rep
  | RetrievalVariant => rep_retrieval rep
  end.

(** *** Orchestrator state machine *)

Inductive state :=
| Idle | LoadingDataset | RunningPipelines | Evaluating | Aggregating | Done | Failed.

(** [DatasetError]s; a document without question/answer pairs is the
    [EmptyDatasetError] of the loading stage. *)
Inductive dataset_error := EmptyDatasetError (doc : string).

Inductive log_entry :=
| Transition (seq : nat) (from to : state)
| Invoke (v : variant) (doc : string).

Inductive run_result :=
| Finished (rep : BenchmarkReport)
| Aborted (err : dataset_error).

Definition qa_count (ds : Dataset) (d : string) : nat :=
  List.length (filter (fun q => String.eqb (qa_doc q) d) (qa_pairs ds)).

(** LoadingDataset: the first document without a QAPair, if any. *)
Definition first_empty (ds : Dataset) : option string :=
  find (fun d => Nat.eqb (qa_count ds d) 0) (documents ds).

(** The units of work: every document on both variants. *)
Definition units (ds : Dataset) : list (string * variant) :=
  flat_map (fun d => [(d, CompressionVariant); (d, RetrievalVariant)]) (documents ds).

Section Run.
Variable cfg : Config.
(** The pipeline variants as seen through the metrics collector: the
    outcome of attempt [k] of variant [v] on document [d]. *)
Variable call : variant -> string -> nat -> outcome.
(** The quality evaluator's overall score of a successful answer. *)
Variable score : variant -> string -> Z.

Definition unit_result (d : string) (v : variant) : outcome * nat :=
  with_retries (retries cfg) (call v d).

Definition collect_records (us : list (string * variant)) : list BenchRecord :=
  flat_map (fun '(d, v) =>
    match fst (unit_result d v) with
    | Success l => [mkBR d v l (score v d)]
    | Failure _ => []
    end) us.

Definition collect_failures (us : list (string * variant)) : list FailureEntry :=
  flat_map (fun '(d, v) =>
    match unit_result d v with
    | (Failure e, n) => [mkFail d v e n]
    | (Success _, _) => []
    end) us.

(** Modelled from the spec: the Benchmark Orchestrator, from Idle through
    LoadingDataset, RunningPipelines, Evaluating and Aggregating to Done,
    or to Failed on an empty document, with its transition log. *)
Definition run (ds : Dataset) : run_result * list log_entry :=
  match first_empty ds with
  | Some d =>
      (Aborted (EmptyDatasetError d),
       [Transition 0 Idle LoadingDataset; Transition 1 LoadingDataset Failed])
  | None =>
      let us := units ds in
      (Finished (aggregate (collect_records us) (collect_failures us)),
       ([Transition 0 Idle LoadingDataset; Transition 1 LoadingDataset RunningPipelines]
        ++ map (fun '(d, v) => Invoke v d) us
        ++ [Transition 2 RunningPipelines Evaluating; Transition 3 Evaluating Aggregating;
            Transition 4 Aggregating Done])%list)
  end.
End Run.

End Engine.

(* ------------------------------------------------------------------ *)
(** ** Quality evaluator: faithfulness *)

Module Evaluator.

(** Modelled from the spec: claim decomposition of the Quality
    Evaluator. The answer is cut at every sentence end ('.') and each
    non-blank sentence is one atomic claim. *)
Fixpoint sentences (s : string) (cur : list ascii) : list (list ascii) :=
  match s with
  | EmptyString => [rev cur]
  | String c s' =>
      if Ascii.eqb c "." then rev cur :: sentences s' [] else sentences s' (c :: cur)
  end.

Definition is_blank (l : list ascii) : bool :=
  forallb (fun c => Ascii.eqb c " " || Ascii.eqb c (ascii_of_nat 10)) l.

Definition claims (answer : string) : list string :=
  map string_of_list_ascii (filter (fun l => negb (is_blank l)) (sentences answer [])).

(** Modelled from the spec: faithfulness is the average, over the
    answer's claims, of the independent entailment check of each claim
    by the context; an answer without claims scores 0. *)
Definition faithfulness (entails : string -> string -> bool) (context answer : string)
  : Q :=
  match claims answer with
  | [] => 0
  | cs => inject_Z (Z.of_nat (List.length (filter (entails context) cs)))
          / inject_Z (Z.of_nat (List.length cs))
  end.

End Evaluator.

(* ------------------------------------------------------------------ *)
(** ** Concrete runs *)

Module Demo.

Import Report Engine.

Definition cfg3 : Config := mkConfig 3.

(** Two documents with one question each. *)
Definition two_docs : Dataset :=
  mkDataset ["doc_001"; "doc_002"]
    [mkQA "doc_001" "What is the invoice total?" "$120";
     mkQA "doc_002" "Who signed the contract?" "A. Smith"].

(** The same documents, the second without any question. *)
Definition one_empty : Dataset :=
  mkDataset ["doc_001"; "doc_002"]
    [mkQA "doc_001" "What is the invoice total?" "$120"].

(** The compression variant times out on every attempt on [doc_001];
    every other call succeeds. *)
Definition timeout_call (v : variant) (d : string) (k : nat) : outcome :=
  match v with
  | CompressionVariant => if String.eqb d "doc_001" then Failure TimeoutError else Success 1240
  | RetrievalVariant => Success 2850
  end.

Definition flat_score (v : variant) (d : string) : Z := 9400.

End Demo.

(* ------------------------------------------------------------------ *)
(** ** Dashboard widgets: toggles, cards and banners *)

Module Widgets.

Import Dashboard.

(** [selectedMetrics[key]] of TimeSeriesChart. *)
Definition selected (k : metric_key) (s : Selected) : bool :=
  match k with
  | KCompression => sel_compression s
  | KLatency => sel_latency s
  | KCost => sel_cost s
  | KAccuracy => sel_accuracy s
  end.

Definition metric_key_eqb (a b : metric_key) : bool :=
  match a, b with
  | KCompression, KCompression | KLatency, KLatency
  | KCost, KCost | KAccuracy, KAccuracy => true
  | _, _ => false
  end.

(** The [dataKey] of each metric button. *)
Definition key_name (k : metric_key) : string :=
  match k with
  | KCompression => "compression"
  | KLatency => "latency"
  | KCost => "cost"
  | KAccuracy => "accuracy"
  end.

(** The chart's [Line]s, in the order the component writes them. *)
Definition chart_keys : list metric_key := [KCompression; KLatency; KCost; KAccuracy].

(** The state after clicking the metric buttons [ks] in order. *)
Definition clicks (ks : list metric_key) : Selected :=
  fold_left (fun s k => toggleMetric k s) ks initialSelected.

Definition count_key (k : metric_key) (ks : list metric_key) : nat :=
  List.length (filter (metric_key_eqb k) ks).

(** Names of the data series of the charts on a screen. *)
Definition plotted (ws : list widget) : list string :=
  flat_map (fun w => match w with WChart _ ser => map fst ser | WCard _ _ _ _ _ => [] end) ws.

(** The trend colour of a card. *)
Definition card_color (w : widget) : option text_color :=
  match w with WCard _ _ _ c _ => Some c | WChart _ _ => None end.

(** The trend number a card prints. *)
Definition card_trend (w : widget) : option Q :=
  match w with WCard _ _ t _ _ => Some t | WChart _ _ => None end.

Definition card_icon (w : widget) : option trend_icon :=
  match w with WCard _ _ _ _ i => i | WChart _ _ => None end.

(** The red "High resource utilization detected" banner of ResourceCard. *)
Definition is_banner (w : widget) : bool :=
  match w with
  | WChart t [] => String.eqb t "High resource utilization detected"
  | _ => false
  end.

Definition banners (ws : list widget) : nat := List.length (filter is_banner ws).

End Widgets.

(* ------------------------------------------------------------------ *)
(** ** The dashboard application (App of Navbar.jsx) *)

Module App.

(** The components a tab panel mounts, with their [expanded] prop. *)
Inductive component :=
| CTimeSeries | CEfficiency (expanded : bool) | CEffectiveness (expanded : bool)
| CBenchmark | CResources | CDeployment.

(** The ids of the tab buttons. *)
Definition tab_ids : list string :=
  ["overview"; "efficiency"; "effectiveness"; "benchmark"; "resources"; "deployment"].

(** Main content: the spinner (no panel) while [loading], otherwise the
    panel of every [activeTab === id] test that holds. *)
Definition main_content (loading : bool) (activeTab : string) : list (list component) :=
  if loading then []
  else app (if String.eqb activeTab "overview"
            then [[CTimeSeries; CEfficiency false; CEffectiveness false]] else [])
      (app (if String.eqb activeTab "efficiency" then [[CEfficiency true]] else [])
      (app (if String.eqb activeTab "effectiveness" then [[CEffectiveness true]] else [])
      (app (if String.eqb activeTab "benchmark" then [[CBenchmark]] else [])
      (app (if String.eqb activeTab "resources" then [[CResources]] else [])
           (if String.eqb activeTab "deployment" then [[CDeployment]] else []))))).

(** The state of App: its four [useState] cells and the pending
    [setTimeout] of the loading effect (remaining milliseconds). *)
Record AppState := mkApp {
  activeTab : string;
  timeRange : string;
  selectedCluster : string;
  loading : bool;
  timer : option nat
}.

(** After mount: the initial state values, and the effect (run once after
    the first render) has set [loading] and started the 1000 ms timer. *)
Definition mounted : AppState := mkApp "overview" "24h" "all" true (Some 1000%nat).

Inductive app_event :=
| ClickTab (id : string)
| SelectTimeRange (v : string)
| SelectCluster (v : string)
| Elapse (ms : nat).

(** A change of [timeRange] or [selectedCluster] re-runs the effect: its
    cleanup clears the pending timer, then [setLoading(true)] and a new
    1000 ms timer. Setting a dependency to its current value does not
    re-run it. *)
Definition restart (s : AppState) : AppState :=
  mkApp (activeTab s) (timeRange s) (selectedCluster s) true (Some 1000%nat).

Definition app_step (s : AppState) (e : app_event) : AppState :=
  match e with
  | ClickTab id => mkApp id (timeRange s) (selectedCluster s) (loading s) (timer s)
  | SelectTimeRange v =>
      if String.eqb v (timeRange s) then s
      else restart (mkApp (activeTab s) v (selectedCluster s) (loading s) (timer s))
  | SelectCluster v =>
      if String.eqb v (selectedCluster s) then s
      else restart (mkApp (activeTab s) (timeRange s) v (loading s) (timer s))
  | Elapse t =>
      match timer s with
      | Some r =>
          if Nat.leb r t then mkApp (activeTab s) (timeRange s) (selectedCluster s) false None
          else mkApp (activeTab s) (timeRange s) (selectedCluster s) (loading s) (Some (r - t)%nat)
      | None => s
      end
  end.

(** Whether a [setTimeout] of the effect is still pending. *)
Definition pending (t : option nat) : bool :=
  match t with Some _ => true | None => false end.

Definition app_run (s : AppState) (es : list app_event) : AppState := fold_left app_step es s.

(** Tab clicks only come from the tab buttons. *)
Definition from_buttons (e : app_event) : Prop :=
  match e with ClickTab id => In id tab_ids | _ => True end.

End App.

(* ------------------------------------------------------------------ *)
(** ** BenchmarkComparison tabs (part_005) *)

Module BenchmarkTabs.

Inductive panel := EfficiencyComparison | EffectivenessComparison | ComparisonSummary.

Definition tab_ids : list string := ["efficiency"; "effectiveness"; "summary"].

Definition initial_tab : string := "efficiency".

(** The tab content: one panel per [activeTab === id] test that holds. *)
Definition content (activeTab : string) : list panel :=
  app (if String.eqb activeTab "efficiency" then [EfficiencyComparison] else [])
   (app (if String.eqb activeTab "effectiveness" then [EffectivenessComparison] else [])
        (if String.eqb activeTab "summary" then [ComparisonSummary] else [])).

(** [setActiveTab(tab.id)] of each click, from the initial tab. *)
Definition after_clicks (ids : list string) : string :=
  fold_left (fun _ id => id) ids initial_tab.

End BenchmarkTabs.

(* ------------------------------------------------------------------ *)
(** ** DeploymentStatus.jsx *)

Module Deployment.

Record badge_style := mkStyle { bg : string; fg : string; icon : string }.

Definition healthy_style : badge_style := mkStyle "bg-green-100" "text-green-800" "CheckCircle".
Definition warning_style : badge_style := mkStyle "bg-yellow-100" "text-yellow-800" "AlertCircle".
Definition error_style : badge_style := mkStyle "bg-red-100" "text-red-800" "AlertCircle".

(** Property names every object literal inherits from [Object.prototype]. *)
Definition object_prototype_keys : list string :=
  ["constructor"; "hasOwnProperty"; "isPrototypeOf"; "propertyIsEnumerable";
   "toString"; "toLocaleString"; "valueOf"; "__proto__"; "__defineGetter__";
   "__defineSetter__"; "__lookupGetter__"; "__lookupSetter__"].

(** [obj[key]] on an object literal: an own property, an inherited member
    of [Object.prototype] (a truthy function or object), or undefined. *)
Inductive js_get (A : Type) := Own (a : A) | Inherited | Missing.
Arguments Own {A} a.
Arguments Inherited {A}.
Arguments Missing {A}.

Definition proto_key (k : string) : bool := existsb (String.eqb k) object_prototype_keys.

Definition statusConfig_get (k : string) : js_get badge_style :=
  if String.eqb k "healthy" then Own healthy_style
  else if String.eqb k "warning" then Own warning_style
  else if String.eqb k "error" then Own error_style
  else if proto_key k then Inherited else Missing.

(** [StatusBadge]: [config = statusConfig[status] || statusConfig.healthy],
    then the badge shows [config]'s colours and icon and the text
    [status]. An inherited member is truthy but has no [icon]: [Icon] is
    undefined and React cannot create the badge's icon element, so the
    badge does not render: [None]. *)
Definition StatusBadge (status : string) : option (badge_style * string) :=
  match statusConfig_get status with
  | Own c => Some (c, status)
  | Missing => Some (healthy_style, status)
  | Inherited => None
  end.

Inductive event_icon := ZapBlue | ZapPurple | AlertYellow | ClockSlate.

(** What React makes of the child [EventIcon] returns: an icon element,
    nothing (a function child is not rendered), or a render error (a
    plain object child throws). *)
Inductive icon_child := IconElement (i : event_icon) | NoChild | ChildError.

(** [EventIcon]: [icons[type] || icons.info]. Of the inherited members of
    [Object.prototype], [__proto__] is [Object.prototype] itself, a plain
    object; the others are functions. *)
Definition EventIcon (type : string) : icon_child :=
  if String.eqb type "deployment" then IconElement ZapBlue
  else if String.eqb type "scaling" then IconElement ZapPurple
  else if String.eqb type "alert" then IconElement AlertYellow
  else if String.eqb type "info" then IconElement ClockSlate
  else if String.eqb type "__proto__" then ChildError
  else if proto_key type then NoChild
  else IconElement ClockSlate.

(** The status badges of one recent event: one [&&] block per known status. *)
Definition event_badges (status : string) : list string :=
  app (if String.eqb status "success" then ["Success"] else [])
   (app (if String.eqb status "warning" then ["Warning"] else [])
        (if String.eqb status "info" then ["Info"] else [])).

(** [mockDeploymentData.recentEvents]: type and status of each event. *)
Definition recentEvents : list (string * string) :=
  [("deployment", "success"); ("scaling", "success"); ("alert", "warning");
   ("deployment", "info")].

End Deployment.

(* ------------------------------------------------------------------ *)
(** ** Tooltip formatters *)

Module Tooltips.

(** The chart library calls a tooltip [formatter] with the series' [name]
    prop (the [dataKey] only when no [name] is given). *)

(** TimeSeriesChart's formatter: the label it gives a series, or [None]
    for its last branch, which returns [value, name] unchanged. *)
Definition ts_formatter (name : string) : option string :=
  if String.eqb name "compression" then Some "Compression Ratio"
  else if String.eqb name "latency" then Some "Latency"
  else if String.eqb name "cost" then Some "Cost"
  else if String.eqb name "accuracy" then Some "Accuracy"
  else None.

(** The [name] props of TimeSeriesChart's four [Line]s. *)
Definition ts_line_names : list string :=
  ["Compression Ratio"; "Latency (ms)"; "Cost (USD)"; "Accuracy (%)"].

(** The formatter of EfficiencyComparison's metrics chart (part_005). *)
Definition efficiency_formatter (name : string) : string :=
  if String.eqb name "deepseek" then "DeepSeek" else "LightOn".

(** The [name] props of that chart's two [Bar]s. *)
Definition efficiency_bar_names : list string := ["DeepSeek-OCR"; "LightOn-OCR"].

End Tooltips.

(* ================================================================== *)
(** * Properties *)

(* ------------------------------------------------------------------ *)
(** ** Quality scores *)

(** C1 (code_bug): the stored overall score is not the documented
    weighted sum of its components. For the DeepSeek column of
    [qualityRadar] (94.2 / 97.1 / 92.5 / 91.3) the weighted sum is 94.15
    while 93.8 is stored; 93.8 is the plain mean 93.775 rounded to one
    decimal. The LightOn column likewise stores its plain mean 94.9, not
    the weighted sum 95.11. *)
Theorem stored_overall_not_weighted_sum :
  Quality.deepseek_score = Some (Quality.mkScore 94.2 97.1 92.5 91.3 93.8)
  /\ Quality.overall_consistent (Quality.mkScore 94.2 97.1 92.5 91.3 93.8) = false
  /\ Qeq_bool (Quality.weighted_overall (Quality.mkScore 94.2 97.1 92.5 91.3 93.8)) 94.15 = true
  /\ Qeq_bool (Quality.round1 (Quality.plain_mean (Quality.mkScore 94.2 97.1 92.5 91.3 93.8)))
       93.8 = true
  /\ Quality.lighton_score = Some (Quality.mkScore 95.1 96.8 93.2 94.5 94.9)
  /\ Quality.overall_consistent (Quality.mkScore 95.1 96.8 93.2 94.5 94.9) = false
  /\ Qeq_bool (Quality.weighted_overall (Quality.mkScore 95.1 96.8 93.2 94.5 94.9)) 95.11 = true
  /\ Qeq_bool (Quality.plain_mean (Quality.mkScore 95.1 96.8 93.2 94.5 94.9)) 94.9 = true.
Proof. repeat split; vm_compute; reflexivity. Qed.

(* ------------------------------------------------------------------ *)
(** ** Stage durations *)

(** C2 (code_bug): the LightOn breakdown of the methodology document
    (850 + 450 + 550 + 1000 + 1550 ms) sums to 4400 ms, not to its stated
    total of 2850 ms, so Σ stages = total (within 1 ms) fails for it; the
    sibling breakdowns (DeepSeek in the document, both columns of
    [latencyBreakdown], the dashboard's latency pie) all satisfy it. *)
Theorem lighton_doc_breakdown_exceeds_total :
  Latency.stage_sum Latency.doc_lighton = 4400%Z
  /\ Latency.total_ms Latency.doc_lighton = 2850%Z
  /\ Latency.within_1ms Latency.doc_lighton = false
  /\ forallb Latency.within_1ms
       [Latency.doc_deepseek; Latency.mock_deepseek; Latency.mock_lighton;
        Latency.dashboard_deepseek] = true.
Proof. repeat split; vm_compute; reflexivity. Qed.

(* ------------------------------------------------------------------ *)
(** ** Comparative statistics *)

(** C4, counterexample: the "Context Recall" row of the summary table
    prints −3.2%, the absolute difference 91.3 − 94.5, whereas the
    percentage delta (A−B)/B is −3.39%. *)
Lemma context_recall_difference_not_pct_delta :
  In (Report.mkSummary "Context Recall" 91.3 94.5 (-3.2) Report.RetrievalVariant)
     Report.summary_table
  /\ Report.difference_is_pct_delta
       (Report.mkSummary "Context Recall" 91.3 94.5 (-3.2) Report.RetrievalVariant) = false.
Proof. split; [simpl; tauto | vm_compute; reflexivity]. Qed.

(** C4 (amended): every winner tag of the summary table follows the
    metric's directionality; the difference column is within one
    percentage point of (A−B)/B for the efficiency metrics and is the
    absolute difference A−B, in percentage points, for the quality-score
    metrics; for compression-ratio means 4.0 vs 1.0 the percentage delta
    is +300% and 4.2 vs 1.0 gives +320%, with the compression variant as
    winner. *)
Theorem summary_table_winners_and_deltas :
  forallb Report.winner_ok Report.summary_table = true
  /\ forallb Report.difference_as_printed Report.summary_table = true
  /\ Report.directionality "Compression Ratio" = Report.HigherIsBetter
  /\ Report.delta_eqb (Report.pct_delta 4.0 1.0) 300 = true
  /\ Report.winner Report.HigherIsBetter 4.0 1.0 = Some Report.CompressionVariant
  /\ Report.delta_eqb (Report.pct_delta 4.2 1.0) 320 = true
  /\ Report.winner Report.HigherIsBetter 4.2 1.0 = Some Report.CompressionVariant.
Proof. repeat split; vm_compute; reflexivity. Qed.

(* ------------------------------------------------------------------ *)
(** ** Dashboard components *)

Module DashboardFacts.

Import Dashboard.

Lemma step_keeps_data (m : Mounted) (e : event) :
  m_efficiency (step m e) = m_efficiency m
  /\ m_effectiveness (step m e) = m_effectiveness m
  /\ m_resource (step m e) = m_resource m.
Proof. destruct e; simpl; auto. Qed.

Lemma fold_keeps_data (es : list event) (m : Mounted) :
  m_efficiency (fold_left step es m) = m_efficiency m
  /\ m_effectiveness (fold_left step es m) = m_effectiveness m
  /\ m_resource (fold_left step es m) = m_resource m.
Proof.
  revert m; induction es as [|e es IH]; intros m; simpl; [auto|].
  destruct (IH (step m e)) as (H1 & H2 & H3).
  destruct (step_keeps_data m e) as (K1 & K2 & K3).
  repeat split; congruence.
Qed.

Lemma screen_ignores_props (p1 p2 : AppProps) (expanded : bool) (m : Mounted) :
  screen p1 expanded m = screen p2 expanded m.
Proof. reflexivity. Qed.

End DashboardFacts.

(** C9: whatever the props of past renders and the clicks on the chart's
    metric toggles, the four components still hold their mock data, and
    rendering them with two different cluster / time-range selections
    shows exactly the same widgets. *)
Theorem dashboard_data_independent_of_props :
  forall (es : list Dashboard.event) (p1 p2 : Dashboard.AppProps) (expanded : bool),
    Dashboard.m_efficiency (Dashboard.run es) = Dashboard.mockEfficiencyData
    /\ Dashboard.m_effectiveness (Dashboard.run es) = Dashboard.mockEffectivenessData
    /\ Dashboard.m_resource (Dashboard.run es) = Dashboard.mockResourceData
    /\ Dashboard.screen p1 expanded (Dashboard.run es)
       = Dashboard.screen p2 expanded (Dashboard.run es).
Proof.
  intros es p1 p2 expanded.
  destruct (DashboardFacts.fold_keeps_data es Dashboard.mount) as (H1 & H2 & H3).
  unfold Dashboard.run; rewrite H1, H2, H3.
  refine (conj eq_refl (conj eq_refl (conj eq_refl _))).
  apply DashboardFacts.screen_ignores_props.
Qed.

(** C10: a [MetricCard]'s trend colour and icon depend only on whether
    the trend is positive (red and up when [trend > 0], green and down
    otherwise), never on the metric; so the "Token Compression Ratio" card,
    a higher-is-better metric with trend +5.3, is drawn red with the
    upward icon. *)
Theorem metric_card_trend_style_by_sign :
  (forall (label : string) (value trend : Q),
      Dashboard.MetricCard label value trend
      = Dashboard.WCard label value (Qabs trend)
          (if Qle_bool trend 0 then Dashboard.TextGreen else Dashboard.TextRed)
          (Some (if Qle_bool trend 0 then Dashboard.TrendingDown else Dashboard.TrendingUp)))
  /\ (forall props : Dashboard.EfficiencyProps,
        hd_error (Dashboard.EfficiencyMetrics props Dashboard.mockEfficiencyData)
        = Some (Dashboard.WCard "Token Compression Ratio" 4.2 5.3
                  Dashboard.TextRed (Some Dashboard.TrendingUp)))
  /\ Report.directionality "Compression Ratio" = Report.HigherIsBetter.
Proof.
  split; [|split].
  - intros label value trend. unfold Dashboard.MetricCard, Dashboard.is_positive.
    destruct (Qle_bool trend 0); reflexivity.
  - intros props. vm_compute. reflexivity.
  - reflexivity.
Qed.

(* ------------------------------------------------------------------ *)
(** ** Report aggregator: ordering *)

Module SortFacts.

Import Engine.

Section Facts.
Context {A : Type} (key : A -> string).

Lemma leb_flip (a b : string) : String.leb a b = false -> String.leb b a = true.
Proof. intros H. destruct (String.leb_total a b); congruence. Qed.

Lemma In_insert (x z : A) (l : list A) : In z (insert key x l) <-> In z (x :: l).
Proof.
  induction l as [|y l IH]; simpl; [tauto|].
  destruct (String.leb (key x) (key y)); simpl; [tauto|].
  rewrite IH. simpl. tauto.
Qed.

Lemma In_isort (z : A) (l : list A) : In z (isort key l) <-> In z l.
Proof.
  induction l as [|x l IH]; [simpl; tauto|].
  change (isort key (x :: l)) with (insert key x (isort key l)).
  rewrite In_insert. simpl. rewrite IH. tauto.
Qed.

Lemma sorted_tail (x : A) (l : list A) : sorted key (x :: l) = true -> sorted key l = true.
Proof. destruct l as [|y l]; simpl; [auto|]. intros H. apply andb_prop in H. tauto. Qed.

Lemma sorted_cons_insert (x : A) (l : list A) :
  forall y, sorted key (y :: l) = true -> String.leb (key y) (key x) = true ->
  sorted key (y :: insert key x l) = true.
Proof.
  induction l as [|z l IH]; intros y Hs Hyx; simpl.
  - rewrite Hyx. reflexivity.
  - simpl in Hs. apply andb_prop in Hs as [Hyz Hs].
    destruct (String.leb (key x) (key z)) eqn:Hxz.
    + simpl. rewrite Hyx, Hxz. simpl. exact Hs.
    + change (String.leb (key y) (key z) && sorted key (z :: insert key x l) = true).
      rewrite Hyz. apply IH; [exact Hs | apply leb_flip; exact Hxz].
Qed.

Lemma sorted_insert (x : A) (l : list A) :
  sorted key l = true -> sorted key (insert key x l) = true.
Proof.
  destruct l as [|y l]; intros Hs; simpl; [reflexivity|].
  destruct (String.leb (key x) (key y)) eqn:Hxy.
  - change (String.leb (key x) (key y) && sorted key (y :: l) = true).
    rewrite Hxy, Hs. reflexivity.
  - apply sorted_cons_insert; [exact Hs | apply leb_flip; exact Hxy].
Qed.

Lemma isort_sorted (l : list A) : sorted key (isort key l) = true.
Proof.
  induction l as [|x l IH]; simpl; [reflexivity|].
  apply sorted_insert. exact IH.
Qed.

Lemma isort_of_sorted (l : list A) : sorted key l = true -> isort key l = l.
Proof.
  induction l as [|x l IH]; intros Hs; simpl; [reflexivity|].
  rewrite (IH (sorted_tail x l Hs)).
  destruct l as [|y l]; simpl; [reflexivity|].
  simpl in Hs. apply andb_prop in Hs as [Hxy _]. rewrite Hxy. reflexivity.
Qed.

Lemma isort_idem (l : list A) : isort key (isort key l) = isort key l.
Proof. apply isort_of_sorted, isort_sorted. Qed.

Lemma insert_perm (x : A) (l : list A) : Permutation (insert key x l) (x :: l).
Proof.
  induction l as [|y l IH]; simpl; [reflexivity|].
  destruct (String.leb (key x) (key y)); [reflexivity|].
  rewrite IH. apply perm_swap.
Qed.

Lemma isort_perm (l : list A) : Permutation (isort key l) l.
Proof.
  induction l as [|x l IH]; [reflexivity|].
  change (isort key (x :: l)) with (insert key x (isort key l)).
  rewrite insert_perm, IH. reflexivity.
Qed.
End Facts.

End SortFacts.

Module AggregateFacts.

Import Report Engine.

Lemma filter_perm {A : Type} (f : A -> bool) (l l' : list A) :
  Permutation l l' -> Permutation (filter f l) (filter f l').
Proof.
  induction 1 as [|x l l' _ IH|x y l|l l' l'' _ IH1 _ IH2]; simpl.
  - reflexivity.
  - destruct (f x); [apply perm_skip|]; exact IH.
  - destruct (f x), (f y); try reflexivity; apply perm_swap.
  - rewrite IH1. exact IH2.
Qed.

Lemma sum_latency_perm (l l' : list BenchRecord) :
  Permutation l l' -> sum_latency l = sum_latency l'.
Proof.
  unfold sum_latency. induction 1; simpl; lia.
Qed.

Lemma sum_quality_perm (l l' : list BenchRecord) :
  Permutation l l' -> sum_quality l = sum_quality l'.
Proof.
  unfold sum_quality. induction 1; simpl; lia.
Qed.

Lemma stats_perm (v : variant) (rs rs' : list BenchRecord) (fs fs' : list FailureEntry) :
  Permutation rs rs' -> Permutation fs fs' -> stats v rs fs = stats v rs' fs'.
Proof.
  intros Hr Hf. unfold stats, of_variant, failures_of.
  pose proof (filter_perm (fun r => variant_eqb (br_variant r) v) _ _ Hr) as Hr'.
  pose proof (filter_perm (fun f => variant_eqb (f_variant f) v) _ _ Hf) as Hf'.
  rewrite (Permutation_length Hr'), (Permutation_length Hf'),
          (sum_latency_perm _ _ Hr'), (sum_quality_perm _ _ Hr').
  reflexivity.
Qed.

Lemma isort_perm_perm {A : Type} (key : A -> string) (l l' : list A) :
  Permutation l l' -> Permutation (isort key l) (isort key l').
Proof.
  intro H. rewrite (SortFacts.isort_perm key l), (SortFacts.isort_perm key l'). exact H.
Qed.

End AggregateFacts.




(** C8: the faithfulness of the empty answer is exactly 0, whatever the
    context and the entailment check. *)
Theorem empty_answer_faithfulness_zero :
  forall (entails : string -> string -> bool) (context : string),
    Evaluator.faithfulness entails context "" = 0.
Proof. intros entails context. reflexivity. Qed.

(* ------------------------------------------------------------------ *)
(** ** Orchestrator *)

Module RunFacts.

Import Report Engine.

Lemma in_units (ds : Dataset) (d : string) (v : variant) :
  In d (documents ds) -> In (d, v) (units ds).
Proof.
  intros Hd. unfold units. apply in_flat_map. exists d. split; [exact Hd|].
  destruct v; simpl; auto.
Qed.

Lemma in_length_pos {A : Type} (x : A) (l : list A) : In x l -> (1 <= List.length l)%nat.
Proof. destruct l as [|y l]; simpl; [intros []| lia]. Qed.

Lemma variant_eqb_refl (v : variant) : variant_eqb v v = true.
Proof. destruct v; reflexivity. Qed.

Lemma first_empty_none (ds : Dataset) :
  (forall x, In x (documents ds) -> (0 < qa_count ds x)%nat) -> first_empty ds = None.
Proof.
  intros H. unfold first_empty.
  destruct (find (fun d => Nat.eqb (qa_count ds d) 0) (documents ds)) as [x|] eqn:E;
    [|reflexivity].
  apply find_some in E as [Hin Heq]. apply Nat.eqb_eq in Heq.
  specialize (H x Hin). lia.
Qed.

Section WithRun.
Variable cfg : Config.
Variable call : variant -> string -> nat -> outcome.
Variable score : variant -> string -> Z.

Lemma failure_collected (us : list (string * variant)) d v e n :
  In (d, v) us -> unit_result cfg call d v = (Failure e, n) ->
  In (mkFail d v e n) (collect_failures cfg call us).
Proof.
  intros Hu Hr. unfold collect_failures. apply in_flat_map.
  exists (d, v). split; [exact Hu|]. cbn beta iota. rewrite Hr. simpl. auto.
Qed.

Lemma success_collected (us : list (string * variant)) d v l m :
  In (d, v) us -> unit_result cfg call d v = (Success l, m) ->
  In (mkBR d v l (score v d)) (collect_records cfg call score us).
Proof.
  intros Hu Hr. unfold collect_records. apply in_flat_map.
  exists (d, v). split; [exact Hu|]. cbn beta iota. rewrite Hr. simpl. auto.
Qed.

Lemma collected_record_succeeded (us : list (string * variant)) r :
  In r (collect_records cfg call score us) ->
  exists l, fst (unit_result cfg call (br_doc r) (br_variant r)) = Success l.
Proof.
  unfold collect_records. intros Hr. apply in_flat_map in Hr as [[d v] [_ Hr]].
  cbn beta iota in Hr.
  destruct (fst (unit_result cfg call d v)) as [l|e] eqn:E; [|destruct Hr].
  destruct Hr as [<-|[]]. simpl. exists l. exact E.
Qed.
End WithRun.

End RunFacts.

(** C5: with a valid dataset, a document whose call on variant [v] fails
    (after the configured retries, for transient errors) does not abort
    the run: the run finishes with a report that lists the failure entry,
    keeps no record of that document on [v], counts at least one exclusion
    for [v], computes [v]'s aggregate latency from [v]'s remaining records
    only, and still contains the document's record on the other variant
    when that call succeeded. *)
Theorem partial_failure_recorded :
  forall (cfg : Engine.Config) (call : Report.variant -> string -> nat -> Engine.outcome)
         (score : Report.variant -> string -> Z) (ds : Engine.Dataset)
         (d : string) (v : Report.variant) (e : Engine.error_kind) (n : nat),
    (forall x, In x (Engine.documents ds) -> (0 < Engine.qa_count ds x)%nat) ->
    In d (Engine.documents ds) ->
    Engine.unit_result cfg call d v = (Engine.Failure e, n) ->
    exists rep,
      fst (Engine.run cfg call score ds) = Engine.Finished rep
      /\ In (Engine.mkFail d v e n) (Engine.rep_failures rep)
      /\ (forall r, In r (Engine.rep_records rep) -> Engine.br_doc r = d ->
            Engine.br_variant r = Engine.other v)
      /\ (1 <= Engine.vs_excluded (Engine.stats_of v rep))%nat
      /\ Engine.vs_latency_sum (Engine.stats_of v rep)
         = Engine.sum_latency (Engine.of_variant v (Engine.rep_records rep))
      /\ (forall l m, Engine.unit_result cfg call d (Engine.other v) = (Engine.Success l, m) ->
            In (Engine.mkBR d (Engine.other v) l (score (Engine.other v) d))
               (Engine.rep_records rep)).
Proof.
  intros cfg call score ds d v e n Hvalid Hd Hfail.
  unfold Engine.run. rewrite (RunFacts.first_empty_none ds Hvalid).
  eexists; split; [reflexivity|].
  assert (Hf : In (Engine.mkFail d v e n)
                  (Engine.collect_failures cfg call (Engine.units ds)))
    by (apply RunFacts.failure_collected; [apply RunFacts.in_units; exact Hd | exact Hfail]).
  unfold Engine.aggregate; cbn [Engine.rep_records Engine.rep_failures].
  split; [|split; [|split; [|split]]].
  - apply SortFacts.In_isort. exact Hf.
  - intros r Hr Hrd. apply SortFacts.In_isort in Hr.
    destruct (RunFacts.collected_record_succeeded cfg call score _ r Hr) as [l Hl].
    rewrite Hrd in Hl.
    destruct v, (Engine.br_variant r); simpl; try reflexivity;
      rewrite Hfail in Hl; discriminate.
  - assert (Hin : In (Engine.mkFail d v e n)
                    (Engine.failures_of v (Engine.isort Engine.f_doc
                       (Engine.collect_failures cfg call (Engine.units ds))))).
    { apply filter_In. split; [apply SortFacts.In_isort; exact Hf|].
      apply RunFacts.variant_eqb_refl. }
    destruct v; simpl; apply (RunFacts.in_length_pos _ _ Hin).
  - destruct v; reflexivity.
  - intros l m Hs. apply SortFacts.In_isort.
    apply (RunFacts.success_collected cfg call score _ d _ l m);
      [apply RunFacts.in_units; exact Hd | exact Hs].
Qed.

(** Witness of C5: two documents with one question each; the compression
    variant times out on [doc_001] on all 4 attempts (3 retries), the
    retrieval variant succeeds. *)
Lemma partial_failure_recorded_witness :
  (forall x, In x (Engine.documents Demo.two_docs) -> (0 < Engine.qa_count Demo.two_docs x)%nat)
  /\ In "doc_001" (Engine.documents Demo.two_docs)
  /\ Engine.unit_result Demo.cfg3 Demo.timeout_call "doc_001" Report.CompressionVariant
     = (Engine.Failure Engine.TimeoutError, 4%nat)
  /\ exists rep,
      fst (Engine.run Demo.cfg3 Demo.timeout_call Demo.flat_score Demo.two_docs)
        = Engine.Finished rep
      /\ In (Engine.mkFail "doc_001" Report.CompressionVariant Engine.TimeoutError 4)
            (Engine.rep_failures rep)
      /\ (forall r, In r (Engine.rep_records rep) -> Engine.br_doc r = "doc_001" ->
            Engine.br_variant r = Engine.other Report.CompressionVariant)
      /\ (1 <= Engine.vs_excluded (Engine.stats_of Report.CompressionVariant rep))%nat
      /\ Engine.vs_latency_sum (Engine.stats_of Report.CompressionVariant rep)
         = Engine.sum_latency (Engine.of_variant Report.CompressionVariant
                                 (Engine.rep_records rep))
      /\ (forall l m,
            Engine.unit_result Demo.cfg3 Demo.timeout_call "doc_001"
              (Engine.other Report.CompressionVariant) = (Engine.Success l, m) ->
            In (Engine.mkBR "doc_001" (Engine.other Report.CompressionVariant) l
                  (Demo.flat_score (Engine.other Report.CompressionVariant) "doc_001"))
               (Engine.rep_records rep)).
Proof.
  assert (Hv : forall x, In x (Engine.documents Demo.two_docs) ->
                 (0 < Engine.qa_count Demo.two_docs x)%nat).
  { intros x Hx. simpl in Hx. destruct Hx as [<-|[<-|[]]]; vm_compute; lia. }
  assert (Hd : In "doc_001" (Engine.documents Demo.two_docs)) by (simpl; auto).
  assert (Hf : Engine.unit_result Demo.cfg3 Demo.timeout_call "doc_001"
                 Report.CompressionVariant = (Engine.Failure Engine.TimeoutError, 4%nat))
    by (vm_compute; reflexivity).
  split; [exact Hv|]. split; [exact Hd|]. split; [exact Hf|].
  exact (partial_failure_recorded Demo.cfg3 Demo.timeout_call Demo.flat_score Demo.two_docs
           "doc_001" Report.CompressionVariant Engine.TimeoutError 4 Hv Hd Hf).
Defined.

(** C6: if some document of the dataset has no question/answer pair, the
    run stops in the LoadingDataset state with an [EmptyDatasetError]
    naming such a document; its log is the two transitions
    Idle → LoadingDataset → Failed and contains no pipeline invocation. *)
Theorem empty_document_fails_fast :
  forall (cfg : Engine.Config) (call : Report.variant -> string -> nat -> Engine.outcome)
         (score : Report.variant -> string -> Z) (ds : Engine.Dataset) (d : string),
    In d (Engine.documents ds) ->
    Engine.qa_count ds d = 0%nat ->
    exists d',
      fst (Engine.run cfg call score ds) = Engine.Aborted (Engine.EmptyDatasetError d')
      /\ In d' (Engine.documents ds) /\ Engine.qa_count ds d' = 0%nat
      /\ snd (Engine.run cfg call score ds)
         = [Engine.Transition 0 Engine.Idle Engine.LoadingDataset;
            Engine.Transition 1 Engine.LoadingDataset Engine.Failed]
      /\ (forall v x, ~ In (Engine.Invoke v x) (snd (Engine.run cfg call score ds))).
Proof.
  intros cfg call score ds d Hd Hq.
  unfold Engine.run.
  destruct (Engine.first_empty ds) as [d'|] eqn:E.
  - unfold Engine.first_empty in E.
    apply find_some in E as [Hin Heq]. apply Nat.eqb_eq in Heq.
    exists d'. repeat split; try assumption.
    intros v x [H|[H|[]]]; discriminate H.
  - unfold Engine.first_empty in E.
    pose proof (find_none _ _ E d Hd) as Hn. simpl in Hn.
    rewrite Hq in Hn. discriminate Hn.
Qed.

(** Witness of C6: [doc_002] has no question. *)
Lemma empty_document_fails_fast_witness :
  In "doc_002" (Engine.documents Demo.one_empty)
  /\ Engine.qa_count Demo.one_empty "doc_002" = 0%nat
  /\ exists d',
      fst (Engine.run Demo.cfg3 Demo.timeout_call Demo.flat_score Demo.one_empty)
        = Engine.Aborted (Engine.EmptyDatasetError d')
      /\ In d' (Engine.documents Demo.one_empty) /\ Engine.qa_count Demo.one_empty d' = 0%nat
      /\ snd (Engine.run Demo.cfg3 Demo.timeout_call Demo.flat_score Demo.one_empty)
         = [Engine.Transition 0 Engine.Idle Engine.LoadingDataset;
            Engine.Transition 1 Engine.LoadingDataset Engine.Failed]
      /\ (forall v x, ~ In (Engine.Invoke v x)
            (snd (Engine.run Demo.cfg3 Demo.timeout_call Demo.flat_score Demo.one_empty))).
Proof.
  assert (Hd : In "doc_002" (Engine.documents Demo.one_empty)) by (simpl; auto).
  assert (Hq : Engine.qa_count Demo.one_empty "doc_002" = 0%nat) by (vm_compute; reflexivity).
  split; [exact Hd|]. split; [exact Hq|].
  exact (empty_document_fails_fast Demo.cfg3 Demo.timeout_call Demo.flat_score Demo.one_empty
           "doc_002" Hd Hq).
Defined.


(* ================================================================== *)
(** * Further properties of the dashboard components *)

Module WidgetFacts.

Import Dashboard Widgets.

Lemma selected_toggle (k a : metric_key) (s : Selected) :
  selected k (toggleMetric a s) = xorb (selected k s) (metric_key_eqb k a).
Proof.
  destruct k, a, s as [c l co ac]; simpl;
    first [destruct c; reflexivity | destruct l; reflexivity
          | destruct co; reflexivity | destruct ac; reflexivity].
Qed.

Lemma selected_fold (k : metric_key) (ks : list metric_key) (s : Selected) :
  selected k (fold_left (fun s k => toggleMetric k s) ks s)
  = xorb (selected k s) (Nat.odd (count_key k ks)).
Proof.
  revert s. induction ks as [|a ks IH]; intro s.
  - simpl. destruct (selected k s); reflexivity.
  - simpl. rewrite IH, selected_toggle. unfold count_key. simpl.
    destruct (metric_key_eqb k a); simpl.
    + rewrite Nat.odd_succ, <- Nat.negb_odd.
      destruct (selected k s), (Nat.odd _); reflexivity.
    + destruct (selected k s); reflexivity.
Qed.

End WidgetFacts.

Module AppFacts.

Import App.

Definition inv (s : AppState) : Prop :=
  loading s = pending (timer s) /\ In (activeTab s) tab_ids.

Lemma step_inv (s : AppState) (e : app_event) :
  inv s -> from_buttons e -> inv (app_step s e).
Proof.
  intros [Hl Ht] He. destruct e as [id|v|v|t]; simpl in *.
  - split; assumption.
  - destruct (String.eqb v (timeRange s)); [split; assumption|].
    split; [reflexivity|exact Ht].
  - destruct (String.eqb v (selectedCluster s)); [split; assumption|].
    split; [reflexivity|exact Ht].
  - destruct (timer s) as [r|] eqn:Er.
    + destruct (Nat.leb r t); split; simpl; try assumption; try reflexivity.
    + split; [rewrite Hl, Er; reflexivity|assumption].
Qed.

Lemma run_inv (es : list app_event) (s : AppState) :
  inv s -> Forall from_buttons es -> inv (app_run s es).
Proof.
  revert s. induction es as [|e es IH]; intros s Hs Hes; [exact Hs|].
  inversion Hes as [|? ? He Hrest]; subst.
  unfold app_run. simpl. apply IH; [apply step_inv|]; assumption.
Qed.

Lemma content_one (tab : string) :
  In tab tab_ids -> List.length (main_content false tab) = 1%nat.
Proof.
  intros [<-|[<-|[<-|[<-|[<-|[<-|[]]]]]]]; reflexivity.
Qed.

Lemma elapse_idle (ts : list nat) (s : AppState) :
  timer s = None -> fold_left app_step (map Elapse ts) s = s.
Proof.
  intro Hn. induction ts as [|t ts IH]; [reflexivity|].
  simpl. rewrite Hn. exact IH.
Qed.

Lemma elapse_loading (ts : list nat) (s : AppState) (r : nat) :
  timer s = Some r -> loading s = true -> (0 < r)%nat ->
  loading (app_run s (map Elapse ts)) = (list_sum ts <? r)%nat.
Proof.
  revert s r. induction ts as [|t ts IH]; intros s r Ht Hl Hr.
  - simpl. rewrite Hl. symmetry. apply Nat.ltb_lt. exact Hr.
  - unfold app_run. simpl. rewrite Ht.
    destruct (Nat.leb r t) eqn:E.
    + apply Nat.leb_le in E.
      rewrite (elapse_idle ts); [|reflexivity]. simpl.
      symmetry. apply Nat.ltb_ge. lia.
    + apply Nat.leb_gt in E.
      change (fold_left app_step (map Elapse ts)
                (mkApp (activeTab s) (timeRange s) (selectedCluster s) (loading s)
                   (Some (r - t)%nat)))
        with (app_run (mkApp (activeTab s) (timeRange s) (selectedCluster s) (loading s)
                   (Some (r - t)%nat)) (map Elapse ts)).
      rewrite (IH _ (r - t)%nat); [|reflexivity|exact Hl|lia].
      simpl. destruct (Nat.ltb_spec (list_sum ts) (r - t)),
                      (Nat.ltb_spec (t + list_sum ts) r); try reflexivity; lia.
Qed.

End AppFacts.

Module TabFacts.

Import BenchmarkTabs.

Lemma after_clicks_in (ids : list string) (acc : string) :
  In acc tab_ids -> Forall (fun id => In id tab_ids) ids ->
  In (fold_left (fun _ id => id) ids acc) tab_ids.
Proof.
  revert acc. induction ids as [|id ids IH]; intros acc Ha Hids; [exact Ha|].
  inversion Hids; subst. simpl. apply IH; assumption.
Qed.

End TabFacts.

(** X1. The metric buttons of TimeSeriesChart: clicking one twice
    restores the selection, and clicks on two buttons commute. *)
Theorem toggleMetric_involutive_commute (k k' : Dashboard.metric_key) (s : Dashboard.Selected) :
  Dashboard.toggleMetric k (Dashboard.toggleMetric k s) = s
  /\ Dashboard.toggleMetric k (Dashboard.toggleMetric k' s)
     = Dashboard.toggleMetric k' (Dashboard.toggleMetric k s).
Proof.
  destruct k, k', s as [c l co ac]; simpl;
    split; try reflexivity;
    first [destruct c; reflexivity | destruct l; reflexivity
          | destruct co; reflexivity | destruct ac; reflexivity].
Qed.

(** X2. After any sequence of clicks on the metric buttons, a metric is
    shown iff it was shown initially (compression and latency) xor its
    button was clicked an odd number of times. *)
Theorem clicks_select_by_parity (ks : list Dashboard.metric_key) (k : Dashboard.metric_key) :
  Widgets.selected k (Widgets.clicks ks)
  = xorb (Widgets.selected k Dashboard.initialSelected) (Nat.odd (Widgets.count_key k ks)).
Proof.
  unfold Widgets.clicks. apply WidgetFacts.selected_fold.
Qed.

(** X3. TimeSeriesChart plots exactly the selected metrics, in the fixed
    order compression, latency, cost, accuracy, whatever the props. *)
Theorem time_series_plots_selected (p : Dashboard.TimeSeriesProps) (s : Dashboard.Selected) :
  Widgets.plotted (Dashboard.TimeSeriesChart p s)
  = map Widgets.key_name (filter (fun k => Widgets.selected k s) Widgets.chart_keys).
Proof.
  destruct s as [[] [] [] []]; reflexivity.
Qed.

(** X4. MetricCard prints the absolute trend, so a trend and its
    opposite print the same number; their colours differ unless the
    trend is zero. *)
Theorem metric_card_prints_magnitude (label : string) (value t : Q) :
  Widgets.card_trend (Dashboard.MetricCard label value t)
  = Widgets.card_trend (Dashboard.MetricCard label value (- t))
  /\ (Widgets.card_color (Dashboard.MetricCard label value t)
      = Widgets.card_color (Dashboard.MetricCard label value (- t)) <-> t == 0).
Proof.
  destruct t as [[|p|p] d]; unfold Dashboard.MetricCard, Dashboard.is_positive; simpl;
    (split; [reflexivity|]); split; intro H;
    try reflexivity; try discriminate H;
    unfold Qeq in H; simpl in H; discriminate H.
Qed.

(** X5. For the same trend, EfficiencyMetrics' MetricCard and
    ResourceMetrics' ResourceCard use the same trend colour (red when
    positive), and EffectivenessCard the other one (green when positive;
    a zero trend is green on the first two and red on the last). *)
Theorem card_colour_conventions (label : string) (value t : Q) (w : bool) :
  Widgets.card_color (Dashboard.MetricCard label value t)
  = Widgets.card_color (hd (Dashboard.WChart "" []) (Dashboard.ResourceCard label value t w))
  /\ Widgets.card_color (Dashboard.EffectivenessCard label value t)
     <> Widgets.card_color (Dashboard.MetricCard label value t).
Proof.
  unfold Dashboard.MetricCard, Dashboard.ResourceCard, Dashboard.EffectivenessCard.
  destruct (Dashboard.is_positive t); simpl; split; congruence.
Qed.

(** X6. ResourceMetrics shows one warning banner for GPU VRAM usage above
    75 and one for memory usage above 70, and never one for CPU usage. *)
Theorem resource_banners_count (p : Dashboard.ResourceProps) (d : Dashboard.ResourceData) :
  Widgets.banners (Dashboard.ResourceMetrics p d)
  = ((if Qle_bool (Dashboard.gpuVramUsage d) 75 then 0 else 1)
     + (if Qle_bool (Dashboard.memoryUsage d) 70 then 0 else 1))%nat.
Proof.
  unfold Dashboard.ResourceMetrics, Dashboard.ResourceCard, Widgets.banners.
  destruct (Qle_bool (Dashboard.gpuVramUsage d) 75), (Qle_bool (Dashboard.memoryUsage d) 70);
    reflexivity.
Qed.

(** X7. In App, from mount and through any events whose tab clicks come
    from the tab buttons, [loading] holds exactly while a timer is
    pending, and the main area shows no panel (the spinner) while
    loading and exactly one tab panel otherwise. *)
Theorem app_spinner_or_one_panel (es : list App.app_event)
  (H : Forall App.from_buttons es) :
  App.loading (App.app_run App.mounted es) = App.pending (App.timer (App.app_run App.mounted es))
  /\ List.length (App.main_content (App.loading (App.app_run App.mounted es))
                                   (App.activeTab (App.app_run App.mounted es)))
     = (if App.loading (App.app_run App.mounted es) then 0 else 1)%nat.
Proof.
  destruct (AppFacts.run_inv es App.mounted) as [Hl Ht];
    [split; [reflexivity|simpl; auto]|exact H|].
  split; [exact Hl|].
  destruct (App.loading (App.app_run App.mounted es)); [reflexivity|].
  apply AppFacts.content_one. exact Ht.
Qed.

Lemma app_spinner_or_one_panel_witness :
  Forall App.from_buttons [App.ClickTab "benchmark"; App.SelectCluster "gke"; App.Elapse 600%nat]
  /\ App.loading (App.app_run App.mounted
        [App.ClickTab "benchmark"; App.SelectCluster "gke"; App.Elapse 600%nat])
     = App.pending (App.timer (App.app_run App.mounted
        [App.ClickTab "benchmark"; App.SelectCluster "gke"; App.Elapse 600%nat]))
  /\ List.length (App.main_content
        (App.loading (App.app_run App.mounted
           [App.ClickTab "benchmark"; App.SelectCluster "gke"; App.Elapse 600%nat]))
        (App.activeTab (App.app_run App.mounted
           [App.ClickTab "benchmark"; App.SelectCluster "gke"; App.Elapse 600%nat])))
     = (if App.loading (App.app_run App.mounted
           [App.ClickTab "benchmark"; App.SelectCluster "gke"; App.Elapse 600%nat]) then 0 else 1)%nat.
Proof.
  assert (H : Forall App.from_buttons
                [App.ClickTab "benchmark"; App.SelectCluster "gke"; App.Elapse 600%nat]).
  { repeat apply Forall_cons; try apply Forall_nil; simpl; auto 10. }
  split; [exact H|].
  exact (app_spinner_or_one_panel _ H).
Defined.

(** X8. Changing the time range or the cluster to a new value starts a
    reload: whatever timer was pending, after further elapsed times
    [ts] the app is loading iff they sum to less than 1000 ms. *)
Theorem app_reload_lasts_1000ms (s : App.AppState) (e : App.app_event) (ts : list nat)
  (Hchange : (exists v, e = App.SelectTimeRange v /\ v <> App.timeRange s)
             \/ (exists v, e = App.SelectCluster v /\ v <> App.selectedCluster s)) :
  App.loading (App.app_run (App.app_step s e) (map App.Elapse ts))
  = (list_sum ts <? 1000)%nat.
Proof.
  destruct Hchange as [[v [-> Hv]]|[v [-> Hv]]]; unfold App.app_step.
  - destruct (String.eqb_spec v (App.timeRange s)); [contradiction|].
    apply AppFacts.elapse_loading; [reflexivity|reflexivity|lia].
  - destruct (String.eqb_spec v (App.selectedCluster s)); [contradiction|].
    apply AppFacts.elapse_loading; [reflexivity|reflexivity|lia].
Qed.

Lemma app_reload_lasts_1000ms_witness :
  App.loading (App.app_run (App.app_step App.mounted (App.SelectTimeRange "7d"))
                 (map App.Elapse [400; 599]%nat))
  = (list_sum [400; 599]%nat <? 1000)%nat.
Proof.
  apply (app_reload_lasts_1000ms App.mounted (App.SelectTimeRange "7d") [400; 599]%nat).
  left. exists "7d". split; [reflexivity|]. simpl. discriminate.
Defined.

(** X9. Whatever tabs of BenchmarkComparison are clicked, exactly one of
    its three panels is shown. *)
Theorem benchmark_comparison_one_panel (ids : list string)
  (H : Forall (fun id => In id BenchmarkTabs.tab_ids) ids) :
  List.length (BenchmarkTabs.content (BenchmarkTabs.after_clicks ids)) = 1%nat.
Proof.
  assert (Hin : In (BenchmarkTabs.after_clicks ids) BenchmarkTabs.tab_ids).
  { apply TabFacts.after_clicks_in; [simpl; auto|exact H]. }
  destruct Hin as [<-|[<-|[<-|[]]]]; reflexivity.
Qed.

Lemma benchmark_comparison_one_panel_witness :
  List.length (BenchmarkTabs.content (BenchmarkTabs.after_clicks ["summary"; "effectiveness"]))
  = 1%nat.
Proof.
  apply benchmark_comparison_one_panel.
  repeat apply Forall_cons; try apply Forall_nil; simpl; auto 10.
Defined.





(** X12. A recent event shows at most one status badge, and none exactly
    when its status is not [success], [warning] or [info]. *)
Theorem event_badges_at_most_one (status : string) :
  (List.length (Deployment.event_badges status) <= 1)%nat
  /\ (Deployment.event_badges status = [] <-> ~ In status ["success"; "warning"; "info"]).
Proof.
  unfold Deployment.event_badges.
  destruct (String.eqb_spec status "success") as [->|n1];
    [simpl; split; [lia|split; [discriminate|intro H; exfalso; apply H; simpl; auto]]|].
  destruct (String.eqb_spec status "warning") as [->|n2];
    [simpl; split; [lia|split; [discriminate|intro H; exfalso; apply H; simpl; auto]]|].
  destruct (String.eqb_spec status "info") as [->|n3];
    [simpl; split; [lia|split; [discriminate|intro H; exfalso; apply H; simpl; auto]]|].
  simpl. split; [lia|split; [|reflexivity]].
  intros _ [e|[e|[e|[]]]]; congruence.
Qed.

(** X13. The tooltip formatters never see the keys they test: the chart
    library hands them the series' [name] props, so TimeSeriesChart's
    formatter renames none of its four lines, and EfficiencyComparison's
    labels both bars "LightOn". *)
Theorem tooltip_formatters_miss_series_names :
  (forall n, In n Tooltips.ts_line_names -> Tooltips.ts_formatter n = None)
  /\ map Tooltips.efficiency_formatter Tooltips.efficiency_bar_names = ["LightOn"; "LightOn"].
Proof.
  split; [|reflexivity].
  intros n [<-|[<-|[<-|[<-|[]]]]]; reflexivity.
Qed.
